(** * MedAI Assist: the relay API routes and the role-gated dashboard views

    Shallow embedding of
    - the inference route  [POST] (src/MedAi-Assistant/types/auth.ts),
    - the training routes  [GET] and [POST] (src/MedAi-Assistant/api/train/route.ts),
    - the login form handler [handleSubmit] (src/app/page.tsx),
    - the dashboard shell [DashboardLayout] (src/MedAi-Assistant/app/dashboard/layout.tsx),
    - the sidebar [menuItems] / [Sidebar] (src/app/dashboard/components/Sidebar.tsx),
    - the zoom and pan logic of [PatientDetail] (src/unnamed/part_003). *)

From Stdlib Require Import String List ZArith Lia Bool.
From Stdlib Require Import DecimalString.
Import ListNotations.
Open Scope string_scope.
Set Warnings "-register-all".

(** ** JSON values and responses *)

(** The values that [JSON.parse] produces and [JSON.stringify] consumes;
    objects keep their keys in insertion order, as [JSON.stringify] does. *)
Inductive json : Type :=
| JNull
| JBool (b : bool)
| JNum (z : Z)
| JStr (s : string)
| JArr (xs : list json)
| JObj (fields : list (string * json)).

(** [new NextResponse(JSON.stringify(body), { status })] *)
Record response := mkResponse { status : Z; body : json }.

(** ** Multipart form data *)

(** A [FormDataEntryValue]: a text field or an uploaded [File]. *)
Inductive entry : Type :=
| EStr (s : string)
| EFile (name : string) (bytes : list Byte.byte).

(** [formData.get(k)] is [null] for a missing field. *)
Definition form := list (string * entry).

Fixpoint form_get (fd : form) (k : string) : option entry :=
  match fd with
  | [] => None
  | (k', v) :: rest => if String.eqb k k' then Some v else form_get rest k
  end.

(** JavaScript truthiness of [formData.get(k)]: [null] and [""] are falsy,
    any other string and every [File] object are truthy. *)
Definition truthy (v : option entry) : bool :=
  match v with
  | None => false
  | Some (EStr s) => negb (String.eqb s "")
  | Some (EFile _ _) => true
  end.

(** String conversion, as in a template literal [`${v}`] or when [spawn]
    turns an argument into a C string. *)
Definition js_str (v : option entry) : string :=
  match v with
  | None => "null"
  | Some (EStr s) => s
  | Some (EFile _ _) => "[object File]"
  end.

(** [`${Date.now()}`]: the decimal rendering of the millisecond clock. *)
Definition show_num (n : N) : string := NilZero.string_of_uint (N.to_uint n).

(** [path.join(a, b)] for a relative [b] without dot segments. *)
Definition path_join (a b : string) : string := a ++ "/" ++ b.

(** ** The environment: file system, clock and the external process *)

(** What the spawned [python] process does: its exit code ([None] when it
    was killed by a signal, so the [close] event reports [null]), and all
    it wrote on standard output and on standard error. *)
Record proc_result := mkProc {
  exit_code : option Z;
  stdout : string;
  stderr : string
}.

(** What [mkdir(dir, { recursive: true })] does on the one directory a
    route creates: it succeeds (the directory is created, or is already
    there as a directory), it rejects with code [EEXIST] (the path names an
    existing non-directory), or it rejects with any other error. *)
Inductive mkdir_outcome : Type := MkdirDone | MkdirEEXIST | MkdirError.

Record env := mkEnv {
  cwd : string;              (** [process.cwd()] *)
  now : N;                   (** [Date.now()] *)
  mkdir_res : mkdir_outcome; (** the outcome of [mkdir(dir, { recursive: true })] *)
  write_ok : bool;           (** whether [writeFile] succeeds in an existing directory *)
  proc : proc_result         (** the external process run *)
}.

(** Whether [mkdir] resolves, leaving a directory at the path. *)
Definition mkdir_ok (e : env) : bool :=
  match mkdir_res e with
  | MkdirDone => true
  | MkdirEEXIST | MkdirError => false
  end.

(** Observable side effects, in order. *)
Inductive event : Type :=
| Mkdir (dir : string)
| WriteFile (dir file : string) (bytes : list Byte.byte)
| Spawn (cmd : string) (args : list string).

(** ** A trace-and-exception monad for the bodies of [try] blocks

    [None] is a thrown exception; the trace records the effects performed
    up to the point where the computation returned or threw. *)
Definition M (A : Type) : Type := list event * option A.

Definition ret {A} (a : A) : M A := ([], Some a).
Definition throw {A} : M A := ([], None).
Definition emit (e : event) : M unit := ([e], Some tt).

Definition bind {A B} (m : M A) (f : A -> M B) : M B :=
  match m with
  | (t1, None) => (t1, None)
  | (t1, Some a) => let (t2, r) := f a in (app t1 t2, r)
  end.

Notation "x <- m ;; k" := (bind m (fun x => k))
  (at level 61, m at next level, right associativity).
Notation "m ;;; k" := (bind m (fun _ => k))
  (at level 61, right associativity).

(** [try { body } catch { return failure }] *)
Definition try_catch (m : M response) (failure : response) : list event * response :=
  match m with
  | (t, Some r) => (t, r)
  | (t, None) => (t, failure)
  end.

Section Routes.

(** [JSON.parse] on the whole standard output; [None] when it throws. *)
Variable json_parse : string -> option json.

(** [await mkdir(dir, { recursive: true })] *)
Definition do_mkdir (e : env) (dir : string) : M unit :=
  if mkdir_ok e then emit (Mkdir dir) else throw.

(** [Buffer.from(await v.arrayBuffer())]: a text field has no
    [arrayBuffer] method, so the call throws a [TypeError]. *)
Definition array_buffer (v : option entry) : M (list Byte.byte) :=
  match v with
  | Some (EFile _ bs) => ret bs
  | _ => throw
  end.

(** [image.name] *)
Definition entry_name (v : option entry) : string :=
  match v with
  | Some (EFile n _) => n
  | _ => "undefined"
  end.

(** [await writeFile(path.join(dir, file), buffer)]: it rejects unless
    [dir] is a directory, which it is only when [mkdir] resolved. *)
Definition do_write (e : env) (dir file : string) (bs : list Byte.byte) : M unit :=
  if mkdir_ok e && write_ok e then emit (WriteFile dir file bs) else throw.

(** [spawn('python', args)], collecting the output streams, then
    [await new Promise(... on('close', code => code === 0 ? resolve : reject))]. *)
Definition run_process (e : env) (args : list string) : M proc_result :=
  emit (Spawn "python" args) ;;;
  match exit_code (proc e) with
  | Some 0%Z => ret (proc e)
  | _ => throw
  end.

(** [if (error) { throw new Error(error) }] *)
Definition check_stderr (p : proc_result) : M unit :=
  if String.eqb (stderr p) "" then ret tt else throw.

(** [JSON.parse(result)] *)
Definition parse_stdout (p : proc_result) : M json :=
  match json_parse (stdout p) with
  | Some j => ret j
  | None => throw
  end.

(** *** The inference route [POST] (types/auth.ts) *)

Definition inference_missing : response :=
  mkResponse 400 (JObj [("success", JBool false); ("error", JStr "Missing required fields")]).

Definition inference_failure : response :=
  mkResponse 500 (JObj [("success", JBool false); ("error", JStr "Inference failed")]).

Definition inference_body (fd : form) (e : env) : M response :=
  let image := form_get fd "image" in
  let imageType := form_get fd "type" in
  let patientName := form_get fd "patientName" in
  let patientId := form_get fd "patientId" in
  if negb (truthy image) || negb (truthy imageType) then ret inference_missing
  else
    let uploadsDir := path_join (cwd e) "uploads" in
    do_mkdir e uploadsDir ;;;
    buffer <- array_buffer image ;;
    let fileName := js_str patientId ++ "_" ++ show_num (now e) ++ "_" ++ entry_name image in
    do_write e uploadsDir fileName buffer ;;;
    p <- run_process e
           [path_join (cwd e) "fl-backend/server/inference.py";
            "--image_path"; path_join uploadsDir fileName;
            "--image_type"; js_str imageType;
            "--patient_id"; js_str patientId;
            "--patient_name"; js_str patientName] ;;
    check_stderr p ;;;
    analysis <- parse_stdout p ;;
    ret (mkResponse 200 (JObj [("success", JBool true);
                               ("result", analysis);
                               ("imagePath", JStr fileName)])).

Definition inference_POST (fd : form) (e : env) : list event * response :=
  try_catch (inference_body fd e) inference_failure.

(** *** The training route [GET] (api/train/route.ts) *)

Definition train_GET_failure : response :=
  mkResponse 500 (JObj [("success", JBool false); ("error", JStr "Failed to get training status")]).

(** Only standard output is collected: the route registers no listener
    on standard error. *)
Definition train_GET_body (e : env) : M response :=
  p <- run_process e [path_join (cwd e) "fl-backend/server/cli.py"; "--mode"; "status"] ;;
  st <- parse_stdout p ;;
  ret (mkResponse 200 (JObj [("success", JBool true); ("status", st)])).

Definition train_GET (e : env) : list event * response :=
  try_catch (train_GET_body e) train_GET_failure.

(** *** The training route [POST] (api/train/route.ts) *)

Definition train_POST_failure : response :=
  mkResponse 500 (JObj [("success", JBool false); ("error", JStr "Training operation failed")]).

(** [createTempDir(dirPath)]: the [mkdir] with an [EEXIST] rejection
    caught and ignored, any other rejection rethrown. *)
Definition createTempDir (e : env) (dir : string) : M unit :=
  match mkdir_res e with
  | MkdirDone => emit (Mkdir dir)
  | MkdirEEXIST => ret tt
  | MkdirError => throw
  end.

Definition train_POST_body (fd : form) (e : env) : M response :=
  let action := form_get fd "action" in
  let clientId := form_get fd "clientId" in
  let modelUpdate := form_get fd "modelUpdate" in
  let tempDir := path_join (cwd e) "temp" in
  createTempDir e tempDir ;;;
  let args := [path_join (cwd e) "fl-backend/server/cli.py";
               "--mode"; js_str action;
               "--client_id"; js_str clientId] in
  args <- (if truthy modelUpdate then
             let updateFile := "update_" ++ js_str clientId ++ "_" ++ show_num (now e) ++ ".pt" in
             buffer <- array_buffer modelUpdate ;;
             do_write e tempDir updateFile buffer ;;;
             ret (app args ["--update_path"; path_join tempDir updateFile])
           else ret args) ;;
  p <- run_process e args ;;
  check_stderr p ;;;
  r <- parse_stdout p ;;
  ret (mkResponse 200 (JObj [("success", JBool true); ("result", r)])).

Definition train_POST (fd : form) (e : env) : list event * response :=
  try_catch (train_POST_body fd e) train_POST_failure.

End Routes.

(** ** Client-side effects of the views *)

(** [UserRole = "doctor" | "radiologist"] (types/auth.ts) *)
Inductive UserRole : Type := doctor | radiologist.

Definition role_str (r : UserRole) : string :=
  match r with
  | doctor => "doctor"
  | radiologist => "radiologist"
  end.

(** The browser cookie jar, name to value. *)
Definition cookie_jar := list (string * string).

Fixpoint getCookie (jar : cookie_jar) (name : string) : option string :=
  match jar with
  | [] => None
  | (n, v) :: rest => if String.eqb name n then Some v else getCookie rest name
  end.

(** Effects a view handler performs besides its own component state. *)
Inductive ui_effect : Type :=
| SetCookie (name value : string) (maxAge : Z) (path : string)
| RouterPush (href : string)
| ConsoleLog (msg : string).

(** *** The login form (src/app/page.tsx) *)

Record login_state := mkLogin {
  email : string;
  password : string;
  selectedRole : option UserRole;
  error : string
}.

(** [handleSubmit]: the new component state and the effects performed. *)
Definition handleSubmit (s : login_state) : login_state * list ui_effect :=
  match selectedRole s with
  | None => (mkLogin (email s) (password s) (selectedRole s) "Please select a role", [])
  | Some r =>
      if negb (String.eqb (email s) "") && negb (String.eqb (password s) "") then
        (s, [SetCookie "userRole" (role_str r) (60 * 60 * 24) "/"; RouterPush "/dashboard"])
      else (s, [])
  end.

(** *** The sidebar (src/app/dashboard/components/Sidebar.tsx) *)

Record menu_item := mkItem { label : string; href : string; roles : list string }.

Definition menuItems : list menu_item :=
  [ mkItem "Home" "/dashboard" ["doctor"; "radiologist"];
    mkItem "Recent Uploads" "/dashboard/recent-uploads" ["doctor"; "radiologist"];
    mkItem "Upload Images" "/dashboard/upload" ["radiologist"];
    mkItem "Book Appointment" "https://www.practo.com/consult" ["doctor"; "radiologist"];
    mkItem "Analytics" "/dashboard/analytics" ["doctor"; "radiologist"];
    mkItem "Settings" "/dashboard/settings" ["doctor"; "radiologist"] ].

(** [item.roles.includes(role)] *)
Definition includes (xs : list string) (x : string) : bool :=
  existsb (String.eqb x) xs.

(** The navigation items [Sidebar] renders:
    [menuItems.filter((item) => item.roles.includes(role))]. *)
Definition Sidebar (role : string) : list menu_item :=
  filter (fun item => includes (roles item) role) menuItems.

(** The logout button's [onClick]: [console.log("Logout clicked")]. *)
Definition logout_onClick : list ui_effect := [ConsoleLog "Logout clicked"].

(** *** The dashboard shell (src/MedAi-Assistant/app/dashboard/layout.tsx) *)

Inductive view : Type :=
| Loading                                    (** [<div>Loading...</div>] *)
| Shell (role : string) (nav : list menu_item). (** [<Sidebar role={userRole} />] and the page *)

(** The render function of [DashboardLayout] for the state [userRole]. *)
Definition layout_render (userRole : option string) : view :=
  match userRole with
  | Some r => if String.eqb r "" then Loading else Shell r (Sidebar r)
  | None => Loading
  end.

(** The mount effect: [getCookie("userRole")]; on a falsy value
    [router.push("/")], otherwise [setUserRole(role)]. *)
Definition layout_effect (jar : cookie_jar) (userRole : option string)
  : option string * list ui_effect :=
  match getCookie jar "userRole" with
  | Some r => if String.eqb r "" then (userRole, [RouterPush "/"]) else (Some r, [])
  | None => (userRole, [RouterPush "/"])
  end.

(** Loading the shell: the state starts at [useState(null)], the effect runs
    once, and the layout renders the resulting state. *)
Definition load_dashboard (jar : cookie_jar) : view * list ui_effect :=
  let (st, effs) := layout_effect jar None in (layout_render st, effs).

(** The shell's state while a dashboard page is open. *)
Record shell_state := mkShell {
  jar : cookie_jar;
  shell_role : option string;   (** [userRole] of [DashboardLayout] *)
  pathname : string;
  console : list string
}.

(** Apply the effects of a handler to the shell state. *)
Definition apply_effect (s : shell_state) (eff : ui_effect) : shell_state :=
  match eff with
  | SetCookie n v _ _ => mkShell ((n, v) :: jar s) (shell_role s) (pathname s) (console s)
  | RouterPush h => mkShell (jar s) (shell_role s) h (console s)
  | ConsoleLog m => mkShell (jar s) (shell_role s) (pathname s) (app (console s) [m])
  end.

Definition apply_effects (s : shell_state) (effs : list ui_effect) : shell_state :=
  fold_left apply_effect effs s.

(** Clicking the sidebar's logout button. *)
Definition click_logout (s : shell_state) : shell_state :=
  apply_effects s logout_onClick.

Fixpoint click_logout_n (n : nat) (s : shell_state) : shell_state :=
  match n with
  | O => s
  | S k => click_logout_n k (click_logout s)
  end.

(** *** Zoom and pan of the scan image (PatientDetail, src/unnamed/part_003) *)

Record pan_state := mkPan { imageZoomed : bool; imagePosition : Z }.

(** [useState(false)], [useState(0)] *)
Definition pan_init : pan_state := mkPan false 0.

Inductive direction : Type := left | right.

(** [handlePan]: the [setImagePosition] updater. *)
Definition handlePan (d : direction) (prev : Z) : Z :=
  let newPosition := match d with left => (prev + 50)%Z | right => (prev - 50)%Z end in
  Z.max (Z.min newPosition 0) (-200)%Z.

(** [disabled={imagePosition >= 0}] and [disabled={imagePosition <= -200}] *)
Definition pan_left_disabled (s : pan_state) : bool := (0 <=? imagePosition s)%Z.
Definition pan_right_disabled (s : pan_state) : bool := (imagePosition s <=? -200)%Z.

Inductive pan_action : Type := ZoomToggle | PanLeft | PanRight.

(** A click: the pan buttons are rendered only while zoomed, and a
    disabled button ignores the click. *)
Definition pan_step (s : pan_state) (a : pan_action) : pan_state :=
  match a with
  | ZoomToggle => mkPan (negb (imageZoomed s)) 0
  | PanLeft =>
      if imageZoomed s && negb (pan_left_disabled s)
      then mkPan (imageZoomed s) (handlePan left (imagePosition s)) else s
  | PanRight =>
      if imageZoomed s && negb (pan_right_disabled s)
      then mkPan (imageZoomed s) (handlePan right (imagePosition s)) else s
  end.

Definition pan_run (s : pan_state) (acts : list pan_action) : pan_state :=
  fold_left pan_step acts s.

(** The pan state kept by every click sequence from the initial state. *)
Definition pan_inv (s : pan_state) : Prop :=
  (imageZoomed s = false -> imagePosition s = 0%Z) /\
  (exists k, imagePosition s = (-50 * k)%Z /\ (0 <= k <= 4)%Z).

(** *** Login role buttons (src/app/page.tsx) *)

(** [onClick={() => setSelectedRole(r)}] on the Doctor and Radiologist buttons. *)
Definition select_role (s : login_state) (r : UserRole) : login_state :=
  mkLogin (email s) (password s) (Some r) (error s).

(** *** Sidebar link attributes (src/app/dashboard/components/Sidebar.tsx) *)

(** [item.href.startsWith("http") ? "_blank" : undefined] *)
Definition link_target (item : menu_item) : option string :=
  if String.prefix "http" (href item) then Some "_blank" else None.

(** [pathname === item.href]: the item gets the highlighted classes. *)
Definition item_active (pathname : string) (item : menu_item) : bool :=
  String.eqb pathname (href item).

(** *** Patient reports (PatientDetail, src/unnamed/part_003) *)

Record PatientReport := mkReport {
  rep_id : string;
  rep_patientName : string;
  rep_patientAge : Z;
  rep_patientGender : string;
  rep_uploadTime : string;
  rep_imageType : string;
  rep_analysis : string;
  rep_diagnosis : string;
  rep_recommendations : string;
  rep_scanImage : string
}.

Definition patientReports : list PatientReport :=
  [ mkReport "1" "John Doe" 45 "Male" "2023-05-10 14:30" "MRI" "Completed"
      "Early-stage brain tumor detected in the frontal lobe. No signs of metastasis."
      "Immediate consultation with a neurosurgeon. Follow-up MRI in 2 weeks. Consider biopsy for further analysis."
      "https://hebbkx1anhila5yf.public.blob.vercel-storage.com/MRI-1-Ddg9I6Yyk3tahFy9FRDCQTtolCgO55.jpeg";
    mkReport "2" "Jane Smith" 32 "Female" "2023-05-10 15:45" "CT Scan (Lungs)" "In Progress"
      "Pending final analysis. Preliminary results show possible early-stage lung nodules."
      "Await final analysis. Follow up with pulmonologist. Consider PET scan for further evaluation."
      "https://hebbkx1anhila5yf.public.blob.vercel-storage.com/CT%20scan-1-ngkmX0x8k3W2YwsHMntHukmgi4dRTf.jpeg";
    mkReport "3" "Bob Johnson" 58 "Male" "2023-05-10 16:20" "MRI" "Completed"
      "Multiple sclerosis (MS) lesions detected in the brain. White matter changes observed."
      "Urgent consultation with neurologist. Consider starting immunomodulatory therapy. Schedule follow-up MRI in 3 months."
      "https://hebbkx1anhila5yf.public.blob.vercel-storage.com/MRI-3-tu1SkmKNfamPISZCQZOR1Fz3KwV47E.jpeg";
    mkReport "4" "Alice Brown" 27 "Female" "2023-05-10 17:10" "CT Scan (Lungs)" "In Progress"
      "Pending final analysis. Initial review suggests possible pneumonia in both lungs with characteristic ground-glass opacities."
      "Await final analysis. Start broad-spectrum antibiotics. Monitor symptoms closely. Follow up in 48 hours."
      "https://hebbkx1anhila5yf.public.blob.vercel-storage.com/CT%20scan-2-5ifoiJK6bbzXoMxs0QzyHGe2fxPx5X.jpeg";
    mkReport "5" "Charlie Davis" 50 "Male" "2023-05-10 18:00" "MRI" "Completed"
      "Multiple sclerosis (MS) lesions detected in the brain. Disease appears to be in early stages with characteristic white matter lesions."
      "Consult with neurologist specializing in MS. Consider starting disease-modifying therapy. Schedule follow-up MRI in 3 months."
      "https://hebbkx1anhila5yf.public.blob.vercel-storage.com/MRI-4-5m1KQEQtYBsApdYxxJK6ISb1nhY19e.jpeg" ].

(** The mount effect of [PatientDetail]:
    [setReport(patientReports.find((r) => r.id === params.id) || null)]. *)
Definition find_report (id : string) : option PatientReport :=
  find (fun r => String.eqb (rep_id r) id) patientReports.

Inductive detail_view : Type :=
| DetailLoading                       (** [<div>Loading...</div>] *)
| DetailReport (r : PatientReport).   (** the report card *)

Definition patient_detail_view (id : string) : detail_view :=
  match find_report id with
  | Some r => DetailReport r
  | None => DetailLoading
  end.

(** *** Recent uploads table (src/app/dashboard/recent-uploads/page.tsx) *)

Record Upload := mkUpload {
  up_id : string;
  up_patientName : string;
  up_uploadTime : string;
  up_imageType : string;
  up_analysis : string
}.

Definition mockUploads : list Upload :=
  [ mkUpload "1" "John Doe" "2023-05-10 14:30" "MRI" "Completed";
    mkUpload "2" "Jane Smith" "2023-05-10 15:45" "CT Scan (Lungs)" "In Progress";
    mkUpload "3" "Bob Johnson" "2023-05-10 16:20" "MRI" "Completed";
    mkUpload "4" "Alice Brown" "2023-05-10 17:10" "CT Scan (Lungs)" "In Progress";
    mkUpload "5" "Charlie Davis" "2023-05-10 18:00" "MRI" "Completed" ].

(** [`/dashboard/patient/${upload.id}`] of the row's "View Details" link. *)
Definition details_href (u : Upload) : string := "/dashboard/patient/" ++ up_id u.

(** *** The image upload form (UploadImage, upload-images.tsx) *)

(** [{ file, preview: URL.createObjectURL(file) }] *)
Record UploadedImage := mkImage { img_file : string; img_preview : string }.

Record upload_form := mkUploadForm {
  images : list UploadedImage;
  uf_patientName : string;
  uf_patientId : string;
  uf_imageType : string
}.

(** [handleImageUpload]: [setImages(prev => [...prev, ...newImages])]. *)
Definition handleImageUpload (s : upload_form) (newImages : list UploadedImage) : upload_form :=
  mkUploadForm (app (images s) newImages) (uf_patientName s) (uf_patientId s) (uf_imageType s).

(** [prev.filter((_, i) => i !== index)] *)
Fixpoint filter_index {A} (xs : list A) (i index : Z) : list A :=
  match xs with
  | [] => []
  | x :: rest =>
      if Z.eqb i index then filter_index rest (i + 1) index
      else x :: filter_index rest (i + 1) index
  end.

(** [removeImage(index)] *)
Definition removeImage (s : upload_form) (index : Z) : upload_form :=
  mkUploadForm (filter_index (images s) 0 index) (uf_patientName s) (uf_patientId s) (uf_imageType s).

(** [handleSubmit]: logs the form, then resets every field. *)
Definition upload_handleSubmit (s : upload_form) : upload_form * list ui_effect :=
  (mkUploadForm [] "" "" "", [ConsoleLog "Submitting:"]).

(** *** The analysis panel (MedicalAnalysis, upload-images.tsx) *)

Record analysis_state := mkAnalysis {
  selectedFile : option (string * list Byte.byte);
  an_imageType : string;          (** ['ct' | 'mri'] *)
  analysis : option json;
  loading : bool;
  an_error : option json          (** [string | null], set from the response *)
}.

(** A field of a parsed JSON object; [None] is [undefined]. *)
Fixpoint json_field (fields : list (string * json)) (k : string) : option json :=
  match fields with
  | [] => None
  | (k', v) :: rest => if String.eqb k k' then Some v else json_field rest k
  end.

Definition json_get (j : json) (k : string) : option json :=
  match j with
  | JObj fields => json_field fields k
  | _ => None
  end.

(** JavaScript truthiness of a JSON value ([undefined] is falsy). *)
Definition json_truthy (v : option json) : bool :=
  match v with
  | None | Some JNull => false
  | Some (JBool b) => b
  | Some (JNum z) => negb (Z.eqb z 0)
  | Some (JStr s) => negb (String.eqb s "")
  | Some (JArr _) | Some (JObj _) => true
  end.

(** The form [handleAnalyze] posts: [image] then [type]. *)
Definition analyze_form (file : string * list Byte.byte) (imageType : string) : form :=
  [("image", EFile (fst file) (snd file)); ("type", EStr imageType)].

(** [handleAnalyze], given the server's answer to the posted form
    ([await response.json()] on the body); [None] when no request is sent. *)
Definition handleAnalyze (s : analysis_state) (server : form -> response)
  : analysis_state * option form :=
  match selectedFile s with
  | None => (s, None)
  | Some f =>
      let fd := analyze_form f (an_imageType s) in
      let data := body (server fd) in
      if json_truthy (json_get data "success") then
        (mkAnalysis (selectedFile s) (an_imageType s) (json_get data "result") false (an_error s),
         Some fd)
      else
        let err := json_get data "error" in
        (mkAnalysis (selectedFile s) (an_imageType s) (analysis s) false
           (Some (if json_truthy err then match err with Some v => v | None => JNull end
                  else JStr "Analysis failed")),
         Some fd)
  end.

(** The server the panel talks to: the inference route of this
    application, answering the posted form. *)
Definition route_server (jp : string -> option json) (e : env) (fd : form) : response :=
  snd (inference_POST jp fd e).

(** The same environment, with the process writing [s] on standard error
    instead. *)
Definition with_stderr (e : env) (s : string) : env :=
  mkEnv (cwd e) (now e) (mkdir_res e) (write_ok e)
        (mkProc (exit_code (proc e)) (stdout (proc e)) s).

(** ** Concrete inputs *)

(** A stand-in for [JSON.parse] on a few literal documents, used only to
    run the routes on concrete inputs; the theorems hold for every parser. *)
Definition sample_parse (s : string) : option json :=
  if String.eqb s "null" then Some JNull
  else if String.eqb s "true" then Some (JBool true)
  else if String.eqb s "false" then Some (JBool false)
  else None.

Definition sample_env (p : proc_result) : env :=
  mkEnv "/srv/medai" 1700000000000%N MkdirDone true p.

Definition proc_ok : proc_result := mkProc (Some 0%Z) "null" "".

(** Case analysis on every [match] of the unfolded route bodies. *)
(** Only scrutinees that are themselves free of [match] are split, and
    the goal is simplified after each split, so that unreachable branches
    disappear before they are split in turn. *)
Ltac split_matches :=
  repeat (simpl; match goal with
                 | |- context [match ?x with _ => _ end] =>
                     lazymatch x with
                     | context [match _ with _ => _ end] => fail
                     | _ => destruct x eqn:?
                     end
                 end).

(** An [In] hypothesis on a concrete trace: keep the equal events only. *)
Ltac trace_in H :=
  simpl in H; repeat (destruct H as [H | H]; [try discriminate H | ]); try contradiction.

(** Unfold a route down to its matches. *)
Ltac unfold_routes :=
  unfold inference_POST, train_GET, train_POST, try_catch, inference_body,
    train_GET_body, train_POST_body, bind, do_mkdir, createTempDir, array_buffer, do_write,
    run_process, check_stderr, parse_stdout, emit, ret, throw; cbv zeta.

(** Take apart equations between pairs. *)
Ltac pairs :=
  repeat match goal with
         | H : (_, _) = (_, _) |- _ => inversion H; subst; clear H
         end.

Lemma string_app_nil_r (s : string) : s ++ "" = s.
Proof. induction s as [| c s IH]; simpl; [reflexivity | rewrite IH; reflexivity]. Qed.

Lemma string_app_assoc (s1 s2 s3 : string) : (s1 ++ s2) ++ s3 = s1 ++ s2 ++ s3.
Proof. induction s1 as [| c s IH]; simpl; [reflexivity | rewrite IH; reflexivity]. Qed.

(** ** Relay routes *)

Lemma train_POST_status (jp : string -> option json) (fd : form) (e : env) :
  snd (train_POST jp fd e) = train_POST_failure \/
  status (snd (train_POST jp fd e)) = 200%Z.
Proof.
  unfold_routes; split_matches; simpl in *; pairs; simpl; auto.
Qed.

Lemma inference_POST_shape (jp : string -> option json) (fd : form) (e : env) :
  snd (inference_POST jp fd e) = inference_missing \/
  snd (inference_POST jp fd e) = inference_failure \/
  exists analysis fileName,
    snd (inference_POST jp fd e) =
      mkResponse 200 (JObj [("success", JBool true); ("result", analysis);
                            ("imagePath", JStr fileName)]).
Proof.
  unfold_routes; split_matches; simpl in *; pairs; simpl; eauto 6.
Qed.

(** C1 (as amended). The inference route rejects a request whose [image] or
    [type] field is missing (or empty) with status 400 and the failure
    envelope, before any directory, file or process is created. The
    training [POST] route checks no field: it never answers 400, and a
    request without [action] answers 200 or 500 and, when the temp
    directory is created and files can be written, creates the temp
    directory, writes any model update file and spawns the process with
    [--mode null]. *)
Theorem C1_missing_fields :
  (forall (jp : string -> option json) (fd : form) (e : env),
      truthy (form_get fd "image") = false \/ truthy (form_get fd "type") = false ->
      inference_POST jp fd e = ([], inference_missing)) /\
  (forall (jp : string -> option json) (fd : form) (e : env),
      status (snd (train_POST jp fd e)) <> 400%Z) /\
  (forall (jp : string -> option json) (fd : form) (e : env),
      form_get fd "action" = None ->
      (status (snd (train_POST jp fd e)) = 200%Z \/ status (snd (train_POST jp fd e)) = 500%Z) /\
      (mkdir_ok e = true -> write_ok e = true ->
       let tempDir := path_join (cwd e) "temp" in
       let clientId := js_str (form_get fd "clientId") in
       let updateFile := "update_" ++ clientId ++ "_" ++ show_num (now e) ++ ".pt" in
       let args := [path_join (cwd e) "fl-backend/server/cli.py";
                    "--mode"; "null"; "--client_id"; clientId] in
       (form_get fd "modelUpdate" = None ->
          fst (train_POST jp fd e) = [Mkdir tempDir; Spawn "python" args]) /\
       (forall name bs, form_get fd "modelUpdate" = Some (EFile name bs) ->
          fst (train_POST jp fd e) =
            [Mkdir tempDir; WriteFile tempDir updateFile bs;
             Spawn "python" (app args ["--update_path"; path_join tempDir updateFile])]))).
Proof.
  split; [| split].
  - intros jp fd e H.
    unfold inference_POST, inference_body, try_catch; cbv zeta.
    destruct H as [H | H]; rewrite H; simpl; [reflexivity |].
    destruct (truthy (form_get fd "image")); reflexivity.
  - intros jp fd e.
    destruct (train_POST_status jp fd e) as [H | H]; rewrite H; discriminate.
  - intros jp fd e Ha; split.
    + destruct (train_POST_status jp fd e) as [H | H]; rewrite ?H; auto.
    + intros Hm Hw; cbv zeta.
      unfold mkdir_ok in Hm; destruct (mkdir_res e) eqn:Hr; try discriminate Hm.
      split; [intro Hu | intros name bs Hu];
        unfold_routes; unfold mkdir_ok; rewrite Hr, Ha, Hu; simpl; rewrite ?Hw;
        split_matches; reflexivity.
Qed.

Lemma C1_missing_fields_witness :
  inference_POST sample_parse [("type", EStr "ct")] (sample_env proc_ok) = ([], inference_missing) /\
  status (snd (train_POST sample_parse [] (sample_env proc_ok))) <> 400%Z /\
  fst (train_POST sample_parse [("clientId", EStr "c1"); ("modelUpdate", EFile "u.pt" [])]
         (sample_env proc_ok)) =
    [Mkdir "/srv/medai/temp";
     WriteFile "/srv/medai/temp" "update_c1_1700000000000.pt" [];
     Spawn "python"
       ["/srv/medai/fl-backend/server/cli.py"; "--mode"; "null";
        "--client_id"; "c1"; "--update_path";
        "/srv/medai/temp/update_c1_1700000000000.pt"]].
Proof.
  split; [| split].
  - apply (proj1 C1_missing_fields); left; reflexivity.
  - apply (proj1 (proj2 C1_missing_fields)).
  - destruct (proj2 (proj2 C1_missing_fields) sample_parse
                [("clientId", EStr "c1"); ("modelUpdate", EFile "u.pt" [])] (sample_env proc_ok)
                eq_refl) as [_ Htrace].
    rewrite (proj2 (Htrace eq_refl eq_refl) "u.pt" [] eq_refl).
    vm_compute; reflexivity.
Defined.

(** C1 fails for the training route: a [POST] without [action] still
    creates the temp directory, writes the model update to disk, spawns the
    process, and answers 200. *)
Lemma C1_train_missing_action :
  let fd := [("clientId", EStr "c1"); ("modelUpdate", EFile "u.pt" [])] in
  form_get fd "action" = None /\
  train_POST sample_parse fd (sample_env proc_ok) =
    ([Mkdir "/srv/medai/temp";
      WriteFile "/srv/medai/temp" "update_c1_1700000000000.pt" [];
      Spawn "python"
        ["/srv/medai/fl-backend/server/cli.py"; "--mode"; "null";
         "--client_id"; "c1"; "--update_path";
         "/srv/medai/temp/update_c1_1700000000000.pt"]],
     mkResponse 200 (JObj [("success", JBool true); ("result", JNull)])).
Proof. split; vm_compute; reflexivity. Qed.

(** C2 (as amended). When the external process exits with code 0 and its
    standard output parses as the JSON value [X], the training [GET] answers
    200 with [{ success: true, status: X }]; the training [POST], once it
    has spawned the process, answers 200 with [{ success: true, result: X }]
    provided the process also wrote nothing to standard error. *)
Theorem C2_train_success (jp : string -> option json) (e : env) (X : json)
    (Hexit : exit_code (proc e) = Some 0%Z)
    (Hparse : jp (stdout (proc e)) = Some X) :
  snd (train_GET jp e) = mkResponse 200 (JObj [("success", JBool true); ("status", X)]) /\
  (forall (fd : form) (args : list string),
      In (Spawn "python" args) (fst (train_POST jp fd e)) ->
      stderr (proc e) = "" ->
      snd (train_POST jp fd e) = mkResponse 200 (JObj [("success", JBool true); ("result", X)])).
Proof.
  split.
  - unfold_routes; simpl; rewrite Hexit; simpl; rewrite Hparse; reflexivity.
  - intros fd args Hin Herr.
    revert Hin; unfold_routes; simpl.
    split_matches; simpl in *; pairs; intro Hin; trace_in Hin;
      try (rewrite Herr in *; discriminate); congruence.
Qed.

Lemma C2_train_success_witness :
  exit_code (proc (sample_env proc_ok)) = Some 0%Z /\
  sample_parse (stdout (proc (sample_env proc_ok))) = Some JNull /\
  snd (train_GET sample_parse (sample_env proc_ok)) =
    mkResponse 200 (JObj [("success", JBool true); ("status", JNull)]) /\
  snd (train_POST sample_parse [("action", EStr "start_round")] (sample_env proc_ok)) =
    mkResponse 200 (JObj [("success", JBool true); ("result", JNull)]).
Proof.
  assert (He : exit_code (proc (sample_env proc_ok)) = Some 0%Z) by reflexivity.
  assert (Hp : sample_parse (stdout (proc (sample_env proc_ok))) = Some JNull) by reflexivity.
  split; [exact He | split; [exact Hp | split]].
  - exact (proj1 (C2_train_success sample_parse (sample_env proc_ok) JNull He Hp)).
  - apply (proj2 (C2_train_success sample_parse (sample_env proc_ok) JNull He Hp)
             [("action", EStr "start_round")]
             ["/srv/medai/fl-backend/server/cli.py"; "--mode"; "start_round";
              "--client_id"; "null"]).
    + vm_compute; right; left; reflexivity.
    + reflexivity.
Defined.

(** C2 fails as stated: the training [POST] treats any standard-error
    output as a failure, even when the process exits with 0 and prints
    valid JSON. *)
Lemma C2_train_stderr_fails :
  let e := sample_env (mkProc (Some 0%Z) "null" "warning") in
  exit_code (proc e) = Some 0%Z /\
  sample_parse (stdout (proc e)) = Some JNull /\
  snd (train_POST sample_parse [("action", EStr "start_round")] e) = train_POST_failure.
Proof. split; [reflexivity | split; vm_compute; reflexivity]. Qed.

(** C3 (as amended). A run of the external process that does not exit with
    code 0 makes every relay handler answer its fixed failure envelope with
    status 500. Standard-error output does the same in the inference [POST]
    and the training [POST]; the training [GET] does not read standard
    error: with exit code 0 and standard output parsing as [X] it answers
    200 with [X] whatever was written to standard error, and its whole run
    is the same for every standard-error content. *)
Theorem C3_process_failure (jp : string -> option json) (e : env) :
  (exit_code (proc e) <> Some 0%Z ->
     train_GET jp e =
       ([Spawn "python" [path_join (cwd e) "fl-backend/server/cli.py"; "--mode"; "status"]],
        train_GET_failure)) /\
  (forall (fd : form) (args : list string),
      In (Spawn "python" args) (fst (inference_POST jp fd e)) ->
      exit_code (proc e) <> Some 0%Z \/ stderr (proc e) <> "" ->
      snd (inference_POST jp fd e) = inference_failure) /\
  (forall (fd : form) (args : list string),
      In (Spawn "python" args) (fst (train_POST jp fd e)) ->
      exit_code (proc e) <> Some 0%Z \/ stderr (proc e) <> "" ->
      snd (train_POST jp fd e) = train_POST_failure) /\
  (forall (X : json) (s : string),
      exit_code (proc e) = Some 0%Z -> jp (stdout (proc e)) = Some X ->
      train_GET jp (with_stderr e s) =
        ([Spawn "python" [path_join (cwd e) "fl-backend/server/cli.py"; "--mode"; "status"]],
         mkResponse 200 (JObj [("success", JBool true); ("status", X)]))) /\
  (forall s : string, train_GET jp (with_stderr e s) = train_GET jp e).
Proof.
  assert (Herr : forall s, s <> "" -> String.eqb s "" = false)
    by (intros s Hs; apply String.eqb_neq; exact Hs).
  split; [| split; [| split; [| split]]].
  - intro Hexit; unfold_routes.
    destruct (exit_code (proc e)) as [[| p | p] |]; simpl;
      try reflexivity; contradiction Hexit; reflexivity.
  - intros fd args Hin Hfail; revert Hin; unfold_routes.
    split_matches; simpl in *; pairs; intro Hin; trace_in Hin; try reflexivity;
      destruct Hfail as [Hf | Hf]; try (contradiction Hf; reflexivity);
      try (apply Herr in Hf; congruence).
  - intros fd args Hin Hfail; revert Hin; unfold_routes.
    split_matches; simpl in *; pairs; intro Hin; trace_in Hin; try reflexivity;
      destruct Hfail as [Hf | Hf]; try (contradiction Hf; reflexivity);
      try (apply Herr in Hf; congruence).
  - intros X s Hexit Hparse; unfold_routes; unfold with_stderr; simpl.
    rewrite Hexit; simpl; rewrite Hparse; reflexivity.
  - intro s; destruct e as [? ? ? ? [ex out err]]; unfold_routes; unfold with_stderr; simpl.
    destruct ex as [[| p | p] |]; simpl; try reflexivity.
Qed.

Lemma C3_process_failure_witness :
  let e := sample_env (mkProc (Some 1%Z) "" "Traceback") in
  let fd := [("image", EFile "scan.dcm" []); ("type", EStr "ct")] in
  train_GET sample_parse e =
    ([Spawn "python" ["/srv/medai/fl-backend/server/cli.py"; "--mode"; "status"]],
     train_GET_failure) /\
  snd (inference_POST sample_parse fd e) = inference_failure /\
  snd (train_POST sample_parse [("action", EStr "get_model")] e) = train_POST_failure /\
  train_GET sample_parse (with_stderr (sample_env proc_ok) "warning: slow") =
    ([Spawn "python" ["/srv/medai/fl-backend/server/cli.py"; "--mode"; "status"]],
     mkResponse 200 (JObj [("success", JBool true); ("status", JNull)])).
Proof.
  intros e fd.
  assert (Hx : exit_code (proc e) <> Some 0%Z) by discriminate.
  split; [| split; [| split]].
  - exact (proj1 (C3_process_failure sample_parse e) Hx).
  - apply (proj1 (proj2 (C3_process_failure sample_parse e)) fd
             ["/srv/medai/fl-backend/server/inference.py"; "--image_path";
              "/srv/medai/uploads/null_1700000000000_scan.dcm"; "--image_type"; "ct";
              "--patient_id"; "null"; "--patient_name"; "null"]).
    + vm_compute; right; right; left; reflexivity.
    + left; exact Hx.
  - apply (proj1 (proj2 (proj2 (C3_process_failure sample_parse e))) [("action", EStr "get_model")]
             ["/srv/medai/fl-backend/server/cli.py"; "--mode"; "get_model";
              "--client_id"; "null"]).
    + vm_compute; right; left; reflexivity.
    + left; exact Hx.
  - apply (proj1 (proj2 (proj2 (proj2 (C3_process_failure sample_parse (sample_env proc_ok)))))
             JNull "warning: slow"); reflexivity.
Defined.

(** C3 fails as stated for the training [GET]: standard-error output with
    exit code 0 and valid JSON on standard output still yields success. *)
Lemma C3_train_GET_ignores_stderr :
  let e := sample_env (mkProc (Some 0%Z) "null" "warning: slow") in
  stderr (proc e) <> "" /\
  train_GET sample_parse e =
    ([Spawn "python" ["/srv/medai/fl-backend/server/cli.py"; "--mode"; "status"]],
     mkResponse 200 (JObj [("success", JBool true); ("status", JNull)])).
Proof. split; [discriminate | vm_compute; reflexivity]. Qed.

(** C4 (as amended). Every inference response is a JSON object whose first
    field is [success] with a boolean value; the other fields are among
    [result], [error] and [imagePath]. *)
Theorem C4_inference_fields (jp : string -> option json) (fd : form) (e : env) :
  exists (b : bool) (rest : list (string * json)),
    body (snd (inference_POST jp fd e)) = JObj (("success", JBool b) :: rest) /\
    forall k v, In (k, v) rest -> In k ["result"; "error"; "imagePath"].
Proof.
  destruct (inference_POST_shape jp fd e) as [H | [H | (a & f & H)]]; rewrite H; simpl;
    eexists; eexists; split; try reflexivity; simpl;
    intros k v Hkv; repeat destruct Hkv as [Hkv | Hkv]; try contradiction;
    inversion Hkv; subst; simpl; auto.
Qed.

(** C4 fails as stated: a successful inference response also carries the
    field [imagePath], the stored file name. *)
Lemma C4_inference_imagePath :
  inference_POST sample_parse
    [("image", EFile "scan.dcm" []); ("type", EStr "ct"); ("patientId", EStr "42")]
    (sample_env proc_ok) =
  ([Mkdir "/srv/medai/uploads";
    WriteFile "/srv/medai/uploads" "42_1700000000000_scan.dcm" [];
    Spawn "python"
      ["/srv/medai/fl-backend/server/inference.py"; "--image_path";
       "/srv/medai/uploads/42_1700000000000_scan.dcm"; "--image_type"; "ct";
       "--patient_id"; "42"; "--patient_name"; "null"]],
   mkResponse 200 (JObj [("success", JBool true); ("result", JNull);
                         ("imagePath", JStr "42_1700000000000_scan.dcm")])).
Proof. vm_compute; reflexivity. Qed.

(** C5. Uploading [scan.dcm] with [type=ct] and [patientId=42]: the file is
    written to the uploads directory under a name that contains ["42_"]
    and, after it, ["scan.dcm"]. *)
Theorem C5_upload_file_name (jp : string -> option json) (fd : form) (e : env)
    (bs : list Byte.byte) (dir file : string) (bytes : list Byte.byte)
    (Himage : form_get fd "image" = Some (EFile "scan.dcm" bs))
    (Htype : form_get fd "type" = Some (EStr "ct"))
    (Hid : form_get fd "patientId" = Some (EStr "42"))
    (Hwrite : In (WriteFile dir file bytes) (fst (inference_POST jp fd e))) :
  dir = path_join (cwd e) "uploads" /\
  exists a b c, file = a ++ "42_" ++ b ++ "scan.dcm" ++ c.
Proof.
  revert Hwrite; unfold_routes; rewrite Himage, Htype, Hid; simpl.
  split_matches; simpl in *; pairs; intro Hin; trace_in Hin;
    inversion Hin; subst; split; try reflexivity;
    exists "", (show_num (now e) ++ "_"), "";
    simpl; rewrite ?string_app_nil_r, ?string_app_assoc; reflexivity.
Qed.

Lemma C5_upload_file_name_witness :
  let fd := [("image", EFile "scan.dcm" []); ("type", EStr "ct"); ("patientId", EStr "42")] in
  path_join (cwd (sample_env proc_ok)) "uploads" = "/srv/medai/uploads" /\
  exists a b c, "42_1700000000000_scan.dcm" = a ++ "42_" ++ b ++ "scan.dcm" ++ c.
Proof.
  intro fd.
  apply (C5_upload_file_name sample_parse fd (sample_env proc_ok) [] "/srv/medai/uploads"
           "42_1700000000000_scan.dcm" []); try reflexivity.
  vm_compute; right; left; reflexivity.
Defined.

(** ** Role-gated views *)

Lemma includes_In (xs : list string) (x : string) :
  includes xs x = true <-> In x xs.
Proof.
  unfold includes; rewrite existsb_exists; split.
  - intros (y & Hy & Heq); apply String.eqb_eq in Heq; subst; exact Hy.
  - intro H; exists x; split; [exact H | apply String.eqb_refl].
Qed.

Lemma load_dashboard_role (jar : cookie_jar) (r : string) :
  getCookie jar "userRole" = Some r -> r <> "" ->
  load_dashboard jar = (Shell r (Sidebar r), []).
Proof.
  intros Hc Hr; apply String.eqb_neq in Hr.
  unfold load_dashboard, layout_effect, layout_render; rewrite Hc, Hr; simpl.
  rewrite Hr; reflexivity.
Qed.

(** C6. Loading the dashboard with the role cookie ["doctor"] renders a
    sidebar without "Upload Images"; with ["radiologist"] the sidebar has
    it. In general the shell renders [Sidebar] for the cookie's role, and
    the sidebar lists exactly the menu items whose allow-list contains
    that role. *)
Theorem C6_sidebar_roles :
  (forall jar : cookie_jar, getCookie jar "userRole" = Some "doctor" ->
     exists nav, fst (load_dashboard jar) = Shell "doctor" nav /\
                 ~ In "Upload Images" (map label nav)) /\
  (forall jar : cookie_jar, getCookie jar "userRole" = Some "radiologist" ->
     exists nav, fst (load_dashboard jar) = Shell "radiologist" nav /\
                 In "Upload Images" (map label nav)) /\
  (forall (jar : cookie_jar) (r : string), getCookie jar "userRole" = Some r -> r <> "" ->
     fst (load_dashboard jar) = Shell r (Sidebar r)) /\
  (forall (r : string) (item : menu_item),
     In item (Sidebar r) <-> In item menuItems /\ In r (roles item)).
Proof.
  split; [| split; [| split]].
  - intros jar Hc; exists (Sidebar "doctor").
    rewrite (load_dashboard_role jar "doctor" Hc) by discriminate.
    split; [reflexivity |].
    vm_compute; intros H; repeat destruct H as [H | H]; discriminate || contradiction.
  - intros jar Hc; exists (Sidebar "radiologist").
    rewrite (load_dashboard_role jar "radiologist" Hc) by discriminate.
    split; [reflexivity |].
    vm_compute; right; right; left; reflexivity.
  - intros jar r Hc Hr; rewrite (load_dashboard_role jar r Hc Hr); reflexivity.
  - intros r item; unfold Sidebar; rewrite filter_In, includes_In; reflexivity.
Qed.

Lemma C6_sidebar_roles_witness :
  (exists nav, fst (load_dashboard [("userRole", "doctor")]) = Shell "doctor" nav /\
               ~ In "Upload Images" (map label nav)) /\
  (exists nav, fst (load_dashboard [("userRole", "radiologist")]) = Shell "radiologist" nav /\
               In "Upload Images" (map label nav)).
Proof.
  split.
  - apply (proj1 C6_sidebar_roles); reflexivity.
  - apply (proj1 (proj2 C6_sidebar_roles)); reflexivity.
Defined.

(** C7. Without a role cookie the shell navigates to the login view ["/"]
    and renders only the loading placeholder, never the gated layout. *)
Theorem C7_no_cookie_redirect (jar : cookie_jar)
    (Hc : getCookie jar "userRole" = None) :
  load_dashboard jar = (Loading, [RouterPush "/"]).
Proof. unfold load_dashboard, layout_effect; rewrite Hc; reflexivity. Qed.

Lemma C7_no_cookie_redirect_witness :
  getCookie [("theme", "dark")] "userRole" = None /\
  load_dashboard [("theme", "dark")] = (Loading, [RouterPush "/"]).
Proof.
  assert (Hc : getCookie [("theme", "dark")] "userRole" = None) by reflexivity.
  split; [exact Hc | exact (C7_no_cookie_redirect _ Hc)].
Defined.

(** C8. Submitting the login form: with a role selected and non-empty
    email and password, the cookie ["userRole"] is set to the role's name
    (["doctor"] or ["radiologist"]) for 24 hours on path ["/"], then the
    router goes to ["/dashboard"]; with no role selected, the error is set
    and no cookie is written; the outcome depends on the credentials only
    through whether they are empty. *)
Theorem C8_login_submit :
  (forall (s : login_state) (r : UserRole),
     selectedRole s = Some r -> email s <> "" -> password s <> "" ->
     snd (handleSubmit s) =
       [SetCookie "userRole" (role_str r) (24 * 60 * 60) "/"; RouterPush "/dashboard"] /\
     (role_str r = "doctor" \/ role_str r = "radiologist")) /\
  (forall s : login_state,
     selectedRole s = None ->
     error (fst (handleSubmit s)) = "Please select a role" /\
     forall n v a p, ~ In (SetCookie n v a p) (snd (handleSubmit s))) /\
  (forall s1 s2 : login_state,
     selectedRole s1 = selectedRole s2 ->
     (email s1 = "" <-> email s2 = "") ->
     (password s1 = "" <-> password s2 = "") ->
     error s1 = error s2 ->
     snd (handleSubmit s1) = snd (handleSubmit s2) /\
     error (fst (handleSubmit s1)) = error (fst (handleSubmit s2))).
Proof.
  assert (Hne : forall x y : string, (x = "" <-> y = "") -> String.eqb x "" = String.eqb y "").
  { intros x y Hxy; destruct (String.eqb x "") eqn:Ex, (String.eqb y "") eqn:Ey; auto.
    - apply String.eqb_eq in Ex; apply Hxy in Ex; subst; discriminate.
    - apply String.eqb_eq in Ey; apply Hxy in Ey; subst; discriminate. }
  split; [| split].
  - intros [em pw sel err] r Hs He Hp; simpl in *; subst.
    apply String.eqb_neq in He; apply String.eqb_neq in Hp.
    unfold handleSubmit; simpl; rewrite He, Hp; simpl.
    split; [reflexivity | destruct r; [left | right]; reflexivity].
  - intros [em pw sel err] Hs; simpl in *; subst; simpl.
    split; [reflexivity | intros n v a p []].
  - intros [em1 pw1 sel1 err1] [em2 pw2 sel2 err2] Hs He Hp Herr; simpl in *; subst.
    unfold handleSubmit; simpl.
    destruct sel2 as [r |]; simpl; [| split; reflexivity].
    rewrite (Hne em1 em2 He), (Hne pw1 pw2 Hp).
    destruct (negb (em2 =? "") && negb (pw2 =? "")); split; reflexivity.
Qed.

Lemma C8_login_submit_witness :
  snd (handleSubmit (mkLogin "a@b.org" "pw" (Some radiologist) "")) =
    [SetCookie "userRole" "radiologist" 86400 "/"; RouterPush "/dashboard"] /\
  error (fst (handleSubmit (mkLogin "a@b.org" "pw" None ""))) = "Please select a role" /\
  snd (handleSubmit (mkLogin "x" "y" (Some doctor) "")) =
    snd (handleSubmit (mkLogin "doctor@hospital.com" "secret" (Some doctor) "")).
Proof.
  split; [| split].
  - apply (proj1 C8_login_submit (mkLogin "a@b.org" "pw" (Some radiologist) "") radiologist);
      [reflexivity | discriminate | discriminate].
  - apply (proj1 (proj2 C8_login_submit) (mkLogin "a@b.org" "pw" None "")); reflexivity.
  - apply (proj2 (proj2 C8_login_submit)); simpl; try reflexivity;
      split; intro H; discriminate H.
Defined.

(** C9. Clicking the logout button any number of times leaves the cookie
    jar, the shell's role state (hence what it renders) and the current
    path unchanged; the only trace is one console line per click. *)
Theorem C9_logout_inert (n : nat) (s : shell_state) :
  jar (click_logout_n n s) = jar s /\
  shell_role (click_logout_n n s) = shell_role s /\
  layout_render (shell_role (click_logout_n n s)) = layout_render (shell_role s) /\
  pathname (click_logout_n n s) = pathname s /\
  console (click_logout_n n s) = app (console s) (repeat "Logout clicked" n).
Proof.
  revert s; induction n as [| n IH]; intro s.
  - simpl; rewrite app_nil_r; repeat split.
  - simpl click_logout_n.
    destruct (IH (click_logout s)) as (Hj & Hr & Hv & Hp & Hc).
    rewrite Hj, Hr, Hp, Hc; simpl.
    repeat split; try reflexivity.
    rewrite <- app_assoc; reflexivity.
Qed.

(** The pan position stays within [-200, 0] under one click. *)
Lemma pan_step_bounds (s : pan_state) (a : pan_action) :
  (-200 <= imagePosition s <= 0)%Z ->
  (-200 <= imagePosition (pan_step s a) <= 0)%Z.
Proof.
  intro H; destruct a; simpl; [lia | |];
    destruct (_ && _); simpl; unfold handlePan; lia.
Qed.

Lemma pan_run_bounds (acts : list pan_action) (s : pan_state) :
  (-200 <= imagePosition s <= 0)%Z ->
  (-200 <= imagePosition (pan_run s acts) <= 0)%Z.
Proof.
  revert s; induction acts as [| a acts IH]; intros s H; simpl; [exact H |].
  apply IH, pan_step_bounds, H.
Qed.

(** C10. The pan position starts at 0 and stays within [-200, 0] under
    every sequence of zoom toggles and pan clicks; the left pan button is
    disabled at 0 and the right one at -200. *)
Theorem C10_pan_bounds :
  imagePosition pan_init = 0%Z /\
  (forall acts : list pan_action,
     (-200 <= imagePosition (pan_run pan_init acts) <= 0)%Z) /\
  (forall s : pan_state, imagePosition s = 0%Z -> pan_left_disabled s = true) /\
  (forall s : pan_state, imagePosition s = (-200)%Z -> pan_right_disabled s = true).
Proof.
  split; [reflexivity | split; [| split]].
  - intro acts; apply pan_run_bounds; simpl; lia.
  - intros s H; unfold pan_left_disabled; rewrite H; reflexivity.
  - intros s H; unfold pan_right_disabled; rewrite H; reflexivity.
Qed.

Lemma C10_pan_bounds_witness :
  pan_left_disabled (mkPan true 0) = true /\
  pan_right_disabled (pan_run pan_init [ZoomToggle; PanRight; PanRight; PanRight; PanRight]) = true.
Proof.
  split.
  - apply (proj1 (proj2 (proj2 C10_pan_bounds))); reflexivity.
  - apply (proj2 (proj2 (proj2 C10_pan_bounds))); vm_compute; reflexivity.
Defined.

(** ** Further properties of the relay routes *)

Lemma inference_POST_present (jp : string -> option json) (fd : form) (e : env) :
  truthy (form_get fd "image") = true -> truthy (form_get fd "type") = true ->
  status (snd (inference_POST jp fd e)) = 200%Z \/
  snd (inference_POST jp fd e) = inference_failure.
Proof.
  intros Hi Ht; unfold_routes; rewrite Hi, Ht; simpl.
  split_matches; simpl in *; pairs; simpl; auto.
Qed.

Lemma inference_POST_result (jp : string -> option json) (fd : form) (e : env) :
  truthy (form_get fd "image") = true -> truthy (form_get fd "type") = true ->
  snd (inference_POST jp fd e) = inference_failure \/
  exists X fileName, jp (stdout (proc e)) = Some X /\
    snd (inference_POST jp fd e) =
      mkResponse 200 (JObj [("success", JBool true); ("result", X); ("imagePath", JStr fileName)]).
Proof.
  intros Hi Ht; unfold_routes; rewrite Hi, Ht; simpl.
  split_matches; simpl in *; pairs; simpl; eauto.
Qed.

(** The inference route answers 400 exactly when [image] or [type] is
    missing or empty, and otherwise 200 or 500. *)
Theorem inference_status_cases (jp : string -> option json) (fd : form) (e : env) :
  (status (snd (inference_POST jp fd e)) = 400%Z <->
     truthy (form_get fd "image") = false \/ truthy (form_get fd "type") = false) /\
  (status (snd (inference_POST jp fd e)) = 200%Z \/
   status (snd (inference_POST jp fd e)) = 400%Z \/
   status (snd (inference_POST jp fd e)) = 500%Z).
Proof.
  destruct (truthy (form_get fd "image")) eqn:Hi, (truthy (form_get fd "type")) eqn:Ht.
  1: { destruct (inference_POST_present jp fd e Hi Ht) as [H | H]; rewrite ?H; simpl.
        - split; [split; [congruence | intros [? | ?]; discriminate] | auto].
        - split; [split; [discriminate | intros [? | ?]; discriminate] | auto]. }
  all: unfold inference_POST, inference_body, try_catch; cbv zeta;
      rewrite Hi, Ht; simpl; split; [tauto | auto].
Qed.

(** A spawned inference process always follows the creation of the uploads
    directory and the writing of the uploaded file's bytes, and receives
    the written file's path after [--image_path]. *)
Theorem inference_spawn_after_write (jp : string -> option json) (fd : form) (e : env)
    (c : string) (args : list string)
    (Hin : In (Spawn c args) (fst (inference_POST jp fd e))) :
  exists name bs,
    form_get fd "image" = Some (EFile name bs) /\
    let dir := path_join (cwd e) "uploads" in
    let fileName := js_str (form_get fd "patientId") ++ "_" ++ show_num (now e) ++ "_" ++ name in
    fst (inference_POST jp fd e) = [Mkdir dir; WriteFile dir fileName bs; Spawn c args] /\
    args = [path_join (cwd e) "fl-backend/server/inference.py";
            "--image_path"; path_join dir fileName;
            "--image_type"; js_str (form_get fd "type");
            "--patient_id"; js_str (form_get fd "patientId");
            "--patient_name"; js_str (form_get fd "patientName")].
Proof.
  revert Hin; unfold_routes.
  split_matches; simpl in *; pairs; intro Hin; trace_in Hin; inversion Hin; subst;
    do 2 eexists; (split; [reflexivity | split; reflexivity]).
Qed.

Lemma inference_spawn_after_write_witness :
  exists name bs,
    form_get (analyze_form ("scan.dcm", []) "ct") "image" = Some (EFile name bs) /\
    let dir := path_join "/srv/medai" "uploads" in
    let fileName := "null_1700000000000_" ++ name in
    fst (inference_POST sample_parse (analyze_form ("scan.dcm", []) "ct") (sample_env proc_ok)) =
      [Mkdir dir; WriteFile dir fileName bs;
       Spawn "python" ["/srv/medai/fl-backend/server/inference.py"; "--image_path";
                       "/srv/medai/uploads/null_1700000000000_scan.dcm"; "--image_type"; "ct";
                       "--patient_id"; "null"; "--patient_name"; "null"]] /\
    ["/srv/medai/fl-backend/server/inference.py"; "--image_path";
     "/srv/medai/uploads/null_1700000000000_scan.dcm"; "--image_type"; "ct";
     "--patient_id"; "null"; "--patient_name"; "null"] =
    [path_join "/srv/medai" "fl-backend/server/inference.py";
     "--image_path"; path_join dir fileName;
     "--image_type"; "ct"; "--patient_id"; "null"; "--patient_name"; "null"].
Proof.
  apply (inference_spawn_after_write sample_parse (analyze_form ("scan.dcm", []) "ct")
           (sample_env proc_ok) "python").
  vm_compute; right; right; left; reflexivity.
Defined.

(** A 200 answer of the inference route carries the parsed standard output
    of a process that exited 0 with empty standard error, and its
    [imagePath] is the name of the file written to the uploads directory. *)
Theorem inference_success_response (jp : string -> option json) (fd : form) (e : env)
    (H200 : status (snd (inference_POST jp fd e)) = 200%Z) :
  exists X fileName bs,
    exit_code (proc e) = Some 0%Z /\ stderr (proc e) = "" /\
    jp (stdout (proc e)) = Some X /\
    In (WriteFile (path_join (cwd e) "uploads") fileName bs) (fst (inference_POST jp fd e)) /\
    body (snd (inference_POST jp fd e)) =
      JObj [("success", JBool true); ("result", X); ("imagePath", JStr fileName)].
Proof.
  revert H200; unfold_routes.
  split_matches; simpl in *; pairs; simpl; intro H200; try discriminate H200.
  repeat match goal with H : String.eqb _ _ = true |- _ => apply String.eqb_eq in H end.
  do 3 eexists; repeat split; try eassumption; simpl; auto.
Qed.

Lemma inference_success_response_witness :
  exists X fileName bs,
    exit_code (proc (sample_env proc_ok)) = Some 0%Z /\ stderr (proc (sample_env proc_ok)) = "" /\
    sample_parse (stdout (proc (sample_env proc_ok))) = Some X /\
    In (WriteFile (path_join "/srv/medai" "uploads") fileName bs)
       (fst (inference_POST sample_parse (analyze_form ("scan.dcm", []) "ct") (sample_env proc_ok))) /\
    body (snd (inference_POST sample_parse (analyze_form ("scan.dcm", []) "ct") (sample_env proc_ok))) =
      JObj [("success", JBool true); ("result", X); ("imagePath", JStr fileName)].
Proof.
  apply (inference_success_response sample_parse (analyze_form ("scan.dcm", []) "ct")
           (sample_env proc_ok)).
  vm_compute; reflexivity.
Defined.

(** An [image] field sent as text instead of a file passes the presence
    check but makes [image.arrayBuffer()] throw: the route answers 500
    after creating the uploads directory, without writing a file or
    spawning a process. *)
Theorem inference_text_image (jp : string -> option json) (fd : form) (e : env) (s : string)
    (Himage : form_get fd "image" = Some (EStr s)) (Hs : s <> "")
    (Htype : truthy (form_get fd "type") = true) :
  inference_POST jp fd e =
    (if mkdir_ok e then [Mkdir (path_join (cwd e) "uploads")] else [], inference_failure).
Proof.
  apply String.eqb_neq in Hs.
  unfold_routes; rewrite Himage, Htype; simpl; rewrite Hs; simpl.
  destruct (mkdir_ok e); reflexivity.
Qed.

Lemma inference_text_image_witness :
  inference_POST sample_parse [("image", EStr "scan.dcm"); ("type", EStr "ct")] (sample_env proc_ok) =
    ([Mkdir "/srv/medai/uploads"], inference_failure).
Proof.
  apply (inference_text_image sample_parse _ (sample_env proc_ok) "scan.dcm");
    [reflexivity | discriminate | reflexivity].
Defined.

(** The training [GET] never touches the file system: its only effect is
    one [python cli.py --mode status] process, and it answers 200 or 500. *)
Theorem train_GET_effects (jp : string -> option json) (e : env) :
  fst (train_GET jp e) =
    [Spawn "python" [path_join (cwd e) "fl-backend/server/cli.py"; "--mode"; "status"]] /\
  (status (snd (train_GET jp e)) = 200%Z \/ snd (train_GET jp e) = train_GET_failure).
Proof.
  unfold_routes; split_matches; auto.
Qed.

(** The training [POST] with no (or an empty) [modelUpdate] writes no file:
    once it spawns the process, its effects are the creation of the temp
    directory (absent when [mkdir] rejected with [EEXIST], which
    [createTempDir] ignores) and the process, which gets exactly
    [--mode action --client_id clientId]. *)
Theorem train_POST_no_update (jp : string -> option json) (fd : form) (e : env)
    (c : string) (args : list string)
    (Hupd : truthy (form_get fd "modelUpdate") = false)
    (Hin : In (Spawn c args) (fst (train_POST jp fd e))) :
  fst (train_POST jp fd e) =
    app (if mkdir_ok e then [Mkdir (path_join (cwd e) "temp")] else []) [Spawn c args] /\
  args = [path_join (cwd e) "fl-backend/server/cli.py";
          "--mode"; js_str (form_get fd "action");
          "--client_id"; js_str (form_get fd "clientId")].
Proof.
  revert Hin; unfold_routes; unfold mkdir_ok; rewrite Hupd.
  split_matches; simpl in *; pairs; intro Hin; trace_in Hin; inversion Hin; subst;
    split; reflexivity.
Qed.

Lemma train_POST_no_update_witness :
  fst (train_POST sample_parse [("action", EStr "get_model"); ("clientId", EStr "7")]
         (sample_env proc_ok)) =
    [Mkdir "/srv/medai/temp";
     Spawn "python" ["/srv/medai/fl-backend/server/cli.py"; "--mode"; "get_model";
                     "--client_id"; "7"]] /\
  ["/srv/medai/fl-backend/server/cli.py"; "--mode"; "get_model"; "--client_id"; "7"] =
  [path_join "/srv/medai" "fl-backend/server/cli.py"; "--mode"; "get_model";
   "--client_id"; "7"].
Proof.
  apply (train_POST_no_update sample_parse
           [("action", EStr "get_model"); ("clientId", EStr "7")] (sample_env proc_ok) "python");
    [reflexivity |].
  vm_compute; right; left; reflexivity.
Defined.

(** The training [POST] with a model update file writes its bytes to
    [temp/update_<clientId>_<now>.pt] before spawning the process, and
    appends [--update_path] with that path to the process arguments. *)
Theorem train_POST_update (jp : string -> option json) (fd : form) (e : env)
    (c : string) (args : list string) (name : string) (bs : list Byte.byte)
    (Hupd : form_get fd "modelUpdate" = Some (EFile name bs))
    (Hin : In (Spawn c args) (fst (train_POST jp fd e))) :
  let tempDir := path_join (cwd e) "temp" in
  let updateFile := "update_" ++ js_str (form_get fd "clientId") ++ "_" ++ show_num (now e) ++ ".pt" in
  fst (train_POST jp fd e) = [Mkdir tempDir; WriteFile tempDir updateFile bs; Spawn c args] /\
  args = [path_join (cwd e) "fl-backend/server/cli.py";
          "--mode"; js_str (form_get fd "action");
          "--client_id"; js_str (form_get fd "clientId");
          "--update_path"; path_join tempDir updateFile].
Proof.
  revert Hin; unfold_routes; unfold mkdir_ok; rewrite Hupd.
  split_matches; simpl in *; pairs; intro Hin; trace_in Hin; inversion Hin; subst;
    split; reflexivity.
Qed.

Lemma train_POST_update_witness :
  let tempDir := path_join "/srv/medai" "temp" in
  let updateFile := "update_" ++ "c1" ++ "_" ++ "1700000000000" ++ ".pt" in
  fst (train_POST sample_parse [("clientId", EStr "c1"); ("modelUpdate", EFile "u.pt" [])]
         (sample_env proc_ok)) =
    [Mkdir tempDir; WriteFile tempDir updateFile [];
     Spawn "python" ["/srv/medai/fl-backend/server/cli.py"; "--mode"; "null";
                     "--client_id"; "c1"; "--update_path";
                     "/srv/medai/temp/update_c1_1700000000000.pt"]] /\
  ["/srv/medai/fl-backend/server/cli.py"; "--mode"; "null";
   "--client_id"; "c1"; "--update_path"; "/srv/medai/temp/update_c1_1700000000000.pt"] =
  [path_join "/srv/medai" "fl-backend/server/cli.py"; "--mode"; "null";
   "--client_id"; "c1"; "--update_path"; path_join tempDir updateFile].
Proof.
  apply (train_POST_update sample_parse [("clientId", EStr "c1"); ("modelUpdate", EFile "u.pt" [])]
           (sample_env proc_ok) "python" _ "u.pt" []);
    [reflexivity |].
  vm_compute; right; right; left; reflexivity.
Defined.

(** The training [POST] spawns nothing when [mkdir] on the temp directory
    rejects with an error other than [EEXIST] (it answers 500 with no effect
    at all), nor when [modelUpdate] is a non-empty text field (its
    [arrayBuffer()] call throws). *)
Theorem train_POST_no_spawn (jp : string -> option json) (fd : form) (e : env) :
  (mkdir_res e = MkdirError -> train_POST jp fd e = ([], train_POST_failure)) /\
  (forall s, form_get fd "modelUpdate" = Some (EStr s) -> s <> "" ->
     train_POST jp fd e =
       (if mkdir_ok e then [Mkdir (path_join (cwd e) "temp")] else [], train_POST_failure)).
Proof.
  split.
  - intro Hm; unfold_routes; rewrite Hm; reflexivity.
  - intros s Hu Hs; apply String.eqb_neq in Hs.
    unfold_routes; unfold mkdir_ok; rewrite Hu.
    destruct (mkdir_res e); simpl; rewrite ?Hs; reflexivity.
Qed.

Lemma train_POST_no_spawn_witness :
  train_POST sample_parse [("modelUpdate", EStr "weights")]
    (sample_env proc_ok) = ([Mkdir "/srv/medai/temp"], train_POST_failure) /\
  train_POST sample_parse [] (mkEnv "/srv/medai" 0 MkdirError true proc_ok) = ([], train_POST_failure).
Proof.
  split.
  - apply (proj2 (train_POST_no_spawn sample_parse _ (sample_env proc_ok)) "weights");
      [reflexivity | discriminate].
  - apply (proj1 (train_POST_no_spawn sample_parse [] (mkEnv "/srv/medai" 0 MkdirError true proc_ok)));
      reflexivity.
Defined.

(** When the temp path already exists as a non-directory, [mkdir] rejects
    with [EEXIST] and [createTempDir] swallows it: without a model update
    the training [POST] still spawns the process, with no directory
    created; with one, writing (or reading) the update fails and the route
    answers 500 having done nothing. *)
Theorem train_POST_temp_not_dir (jp : string -> option json) (fd : form) (e : env)
    (Hm : mkdir_res e = MkdirEEXIST) :
  (truthy (form_get fd "modelUpdate") = false ->
     fst (train_POST jp fd e) =
       [Spawn "python" [path_join (cwd e) "fl-backend/server/cli.py";
                        "--mode"; js_str (form_get fd "action");
                        "--client_id"; js_str (form_get fd "clientId")]]) /\
  (truthy (form_get fd "modelUpdate") = true ->
     train_POST jp fd e = ([], train_POST_failure)).
Proof.
  split; intro Hu; unfold_routes; unfold mkdir_ok; rewrite Hm, Hu; simpl.
  - split_matches; reflexivity.
  - destruct (form_get fd "modelUpdate") as [[? | ? ?] |]; reflexivity.
Qed.

Lemma train_POST_temp_not_dir_witness :
  train_POST sample_parse [("action", EStr "get_model"); ("clientId", EStr "7")]
    (mkEnv "/srv/medai" 0 MkdirEEXIST true proc_ok) =
    ([Spawn "python" ["/srv/medai/fl-backend/server/cli.py"; "--mode"; "get_model";
                      "--client_id"; "7"]],
     mkResponse 200 (JObj [("success", JBool true); ("result", JNull)])) /\
  train_POST sample_parse [("modelUpdate", EFile "u.pt" [])]
    (mkEnv "/srv/medai" 0 MkdirEEXIST true proc_ok) = ([], train_POST_failure).
Proof.
  split.
  - apply injective_projections; [| vm_compute; reflexivity].
    rewrite (proj1 (train_POST_temp_not_dir sample_parse
                      [("action", EStr "get_model"); ("clientId", EStr "7")]
                      (mkEnv "/srv/medai" 0 MkdirEEXIST true proc_ok) eq_refl) eq_refl).
    reflexivity.
  - apply (proj2 (train_POST_temp_not_dir sample_parse [("modelUpdate", EFile "u.pt" [])]
                    (mkEnv "/srv/medai" 0 MkdirEEXIST true proc_ok) eq_refl)); reflexivity.
Defined.

(** ** Further properties of the views *)

(** A successful login composes with the dashboard shell: once its effects
    are applied, the browser is on ["/dashboard"] and loading the shell
    renders the gated layout for the selected role. *)
Theorem login_then_dashboard (s : login_state) (r : UserRole) (sh : shell_state)
    (Hr : selectedRole s = Some r) (He : email s <> "") (Hp : password s <> "") :
  pathname (apply_effects sh (snd (handleSubmit s))) = "/dashboard" /\
  load_dashboard (jar (apply_effects sh (snd (handleSubmit s)))) =
    (Shell (role_str r) (Sidebar (role_str r)), []).
Proof.
  apply String.eqb_neq in He; apply String.eqb_neq in Hp.
  unfold handleSubmit; rewrite Hr, He, Hp; simpl.
  split; [reflexivity |].
  apply load_dashboard_role; [reflexivity | destruct r; discriminate].
Qed.

Lemma login_then_dashboard_witness :
  pathname (apply_effects (mkShell [] None "/" [])
              (snd (handleSubmit (mkLogin "a@b.org" "pw" (Some doctor) "")))) = "/dashboard" /\
  load_dashboard (jar (apply_effects (mkShell [] None "/" [])
                         (snd (handleSubmit (mkLogin "a@b.org" "pw" (Some doctor) ""))))) =
    (Shell (role_str doctor) (Sidebar (role_str doctor)), []).
Proof.
  apply (login_then_dashboard (mkLogin "a@b.org" "pw" (Some doctor) "") doctor);
    [reflexivity | discriminate | discriminate].
Defined.

(** The "Please select a role" error is never cleared: after a submit
    without a role, choosing a role and submitting again logs in, and the
    error message is still set. *)
Theorem login_error_persists (s : login_state) (r : UserRole)
    (Hn : selectedRole s = None) (He : email s <> "") (Hp : password s <> "") :
  let s2 := select_role (fst (handleSubmit s)) r in
  snd (handleSubmit s2) =
    [SetCookie "userRole" (role_str r) (60 * 60 * 24) "/"; RouterPush "/dashboard"] /\
  error (fst (handleSubmit s2)) = "Please select a role".
Proof.
  apply String.eqb_neq in He; apply String.eqb_neq in Hp.
  destruct s as [em pw sel err]; simpl in *; subst.
  unfold handleSubmit; simpl; rewrite He, Hp; simpl; split; reflexivity.
Qed.

Lemma login_error_persists_witness :
  snd (handleSubmit (select_role (fst (handleSubmit (mkLogin "a@b.org" "pw" None ""))) doctor)) =
    [SetCookie "userRole" (role_str doctor) (60 * 60 * 24) "/"; RouterPush "/dashboard"] /\
  error (fst (handleSubmit (select_role (fst (handleSubmit (mkLogin "a@b.org" "pw" None ""))) doctor)))
    = "Please select a role".
Proof.
  apply (login_error_persists (mkLogin "a@b.org" "pw" None "") doctor);
    [reflexivity | discriminate | discriminate].
Defined.

(** The shell does not validate the cookie's value: an empty value is
    treated as absent (redirect to ["/"]), and any other value outside the
    two roles is accepted and renders the layout with an empty sidebar. *)
Theorem layout_cookie_values (jar : cookie_jar) :
  (getCookie jar "userRole" = Some "" -> load_dashboard jar = (Loading, [RouterPush "/"])) /\
  (forall r, getCookie jar "userRole" = Some r -> r <> "" -> r <> "doctor" -> r <> "radiologist" ->
     load_dashboard jar = (Shell r [], [])).
Proof.
  split.
  - intro Hc; unfold load_dashboard, layout_effect; rewrite Hc; reflexivity.
  - intros r Hc Hr Hd Hrad.
    rewrite (load_dashboard_role jar r Hc Hr).
    apply String.eqb_neq in Hd; apply String.eqb_neq in Hrad.
    unfold Sidebar, menuItems, includes; simpl; rewrite Hd, Hrad; reflexivity.
Qed.

Lemma layout_cookie_values_witness :
  load_dashboard [("userRole", "")] = (Loading, [RouterPush "/"]) /\
  load_dashboard [("userRole", "admin")] = (Shell "admin" [], []).
Proof.
  split.
  - apply (proj1 (layout_cookie_values [("userRole", "")])); reflexivity.
  - apply (proj2 (layout_cookie_values [("userRole", "admin")]) "admin");
      [reflexivity | discriminate | discriminate | discriminate].
Defined.

Lemma filter_inactive (p : string) (f : menu_item -> bool) (l : list menu_item) :
  ~ In p (map href l) -> filter (item_active p) (filter f l) = [].
Proof.
  induction l as [| x l IH]; intro Hn; simpl; [reflexivity |].
  simpl in Hn.
  destruct (f x); simpl; [destruct (item_active p x) eqn:Ha |];
    try (apply IH; tauto).
  unfold item_active in Ha; apply String.eqb_eq in Ha; subst; tauto.
Qed.

Lemma active_at_most_one (p : string) (f : menu_item -> bool) (l : list menu_item) :
  NoDup (map href l) -> length (filter (item_active p) (filter f l)) <= 1.
Proof.
  induction l as [| x l IH]; intro Hnd; simpl; [lia |].
  inversion Hnd as [| ? ? Hx Hnd']; subst.
  destruct (f x); simpl; [destruct (item_active p x) eqn:Ha; simpl |]; auto.
  unfold item_active in Ha; apply String.eqb_eq in Ha; subst.
  rewrite filter_inactive by exact Hx; simpl; lia.
Qed.

Lemma NoDup_map_filter {A B} (g : A -> B) (f : A -> bool) (l : list A) :
  NoDup (map g l) -> NoDup (map g (filter f l)).
Proof.
  induction l as [| x l IH]; intro Hnd; simpl; [constructor |].
  inversion Hnd as [| ? ? Hx Hnd']; subst.
  destruct (f x); simpl; [constructor |]; auto.
  intro Hin; apply Hx; apply in_map_iff in Hin as (y & Hy & Hyin).
  apply filter_In in Hyin as [Hyin _]; rewrite <- Hy; apply in_map, Hyin.
Qed.

(** Whatever the role and the current path, at most one sidebar item is
    highlighted as active: the menu's targets are pairwise distinct. *)
Theorem sidebar_active_unique (role pathname : string) :
  NoDup (map href (Sidebar role)) /\
  length (filter (item_active pathname) (Sidebar role)) <= 1.
Proof.
  assert (Hnd : NoDup (map href menuItems)).
  { repeat constructor; simpl; intro H; repeat destruct H as [H | H];
      try discriminate H; contradiction. }
  split.
  - apply NoDup_map_filter, Hnd.
  - apply active_at_most_one, Hnd.
Qed.

Lemma pan_step_inv (s : pan_state) (a : pan_action) : pan_inv s -> pan_inv (pan_step s a).
Proof.
  unfold pan_inv; intros [Hz (k & Hk & Hb)].
  destruct a; unfold pan_step; cbn [imageZoomed imagePosition].
  - split; [reflexivity | exists 0%Z; lia].
  - destruct (imageZoomed s && negb (pan_left_disabled s)) eqn:Hc; [| split; eauto].
    apply andb_true_iff in Hc as [Hc1 Hc2].
    unfold pan_left_disabled in Hc2; apply negb_true_iff, Z.leb_gt in Hc2.
    cbn [imageZoomed imagePosition]; split; [congruence |].
    exists (k - 1)%Z; unfold handlePan; cbv beta iota zeta; lia.
  - destruct (imageZoomed s && negb (pan_right_disabled s)) eqn:Hc; [| split; eauto].
    apply andb_true_iff in Hc as [Hc1 Hc2].
    unfold pan_right_disabled in Hc2; apply negb_true_iff, Z.leb_gt in Hc2.
    cbn [imageZoomed imagePosition]; split; [congruence |].
    exists (k + 1)%Z; unfold handlePan; cbv beta iota zeta; lia.
Qed.

(** From the initial state, under any click sequence, the pan position is
    0 whenever the image is not zoomed, and is always one of 0, -50, -100,
    -150, -200. *)
Theorem pan_reachable_positions (acts : list pan_action) :
  (imageZoomed (pan_run pan_init acts) = false -> imagePosition (pan_run pan_init acts) = 0%Z) /\
  exists k, imagePosition (pan_run pan_init acts) = (-50 * k)%Z /\ (0 <= k <= 4)%Z.
Proof.
  assert (H : forall s, pan_inv s -> pan_inv (pan_run s acts)).
  { induction acts as [| a acts IH]; intros s Hs; simpl; auto.
    apply IH, pan_step_inv, Hs. }
  apply H; split; [reflexivity | exists 0%Z; simpl; lia].
Qed.

(** Panning right then left (or left then right) on a zoomed image
    returns to the same position when neither pan is clamped. *)
Theorem pan_round_trip (s : pan_state) (Hz : imageZoomed s = true) :
  ((-150 <= imagePosition s <= 0)%Z -> pan_step (pan_step s PanRight) PanLeft = s) /\
  ((-200 <= imagePosition s <= -50)%Z -> pan_step (pan_step s PanLeft) PanRight = s).
Proof.
  destruct s as [z p]; simpl in Hz; subst; split; intro Hp; simpl in Hp.
  - unfold pan_step, pan_right_disabled, pan_left_disabled, handlePan; simpl.
    destruct (p <=? -200)%Z eqn:E1; [apply Z.leb_le in E1; lia |]; simpl.
    destruct (0 <=? Z.max (Z.min (p - 50) 0) (-200))%Z eqn:E2;
      [apply Z.leb_le in E2; lia |]; simpl.
    f_equal; lia.
  - unfold pan_step, pan_right_disabled, pan_left_disabled, handlePan; simpl.
    destruct (0 <=? p)%Z eqn:E1; [apply Z.leb_le in E1; lia |]; simpl.
    destruct (Z.max (Z.min (p + 50) 0) (-200) <=? -200)%Z eqn:E2;
      [apply Z.leb_le in E2; lia |]; simpl.
    f_equal; lia.
Qed.

Lemma pan_round_trip_witness :
  pan_step (pan_step (mkPan true (-100)) PanRight) PanLeft = mkPan true (-100).
Proof. apply (proj1 (pan_round_trip (mkPan true (-100)) eq_refl)); simpl; lia. Defined.

Lemma find_report_none (id : string) (l : list PatientReport) :
  ~ In id (map rep_id l) -> find (fun r => String.eqb (rep_id r) id) l = None.
Proof.
  induction l as [| r l IH]; intro Hn; simpl; [reflexivity |].
  simpl in Hn; destruct (String.eqb (rep_id r) id) eqn:E.
  - apply String.eqb_eq in E; tauto.
  - apply IH; tauto.
Qed.

(** The patient view finds every report by its own id, and stays on
    "Loading..." for any id that has no report. *)
Theorem patient_lookup :
  (forall r, In r patientReports -> patient_detail_view (rep_id r) = DetailReport r) /\
  (forall id, ~ In id (map rep_id patientReports) -> patient_detail_view id = DetailLoading).
Proof.
  split.
  - intros r Hr; simpl in Hr; repeat destruct Hr as [Hr | Hr]; subst; try contradiction;
      reflexivity.
  - intros id Hn; unfold patient_detail_view, find_report; rewrite find_report_none; auto.
Qed.

(** Every row of the recent-uploads table links to a patient page whose
    report has the row's patient name, upload time, image type and
    analysis status. *)
Theorem recent_uploads_links_resolve :
  forall u, In u mockUploads ->
    exists r, find_report (up_id u) = Some r /\
              details_href u = "/dashboard/patient/" ++ rep_id r /\
              patient_detail_view (rep_id r) = DetailReport r /\
              rep_patientName r = up_patientName u /\ rep_uploadTime r = up_uploadTime u /\
              rep_imageType r = up_imageType u /\ rep_analysis r = up_analysis u.
Proof.
  intros u Hu; simpl in Hu; repeat destruct Hu as [Hu | Hu]; subst; try contradiction;
    eexists; (split; [simpl; reflexivity |]); repeat split; reflexivity.
Qed.

Lemma recent_uploads_links_resolve_witness :
  exists r, find_report "3" = Some r /\
            details_href (mkUpload "3" "Bob Johnson" "2023-05-10 16:20" "MRI" "Completed") =
              "/dashboard/patient/" ++ rep_id r /\
            patient_detail_view (rep_id r) = DetailReport r /\
            rep_patientName r = "Bob Johnson" /\ rep_uploadTime r = "2023-05-10 16:20" /\
            rep_imageType r = "MRI" /\ rep_analysis r = "Completed".
Proof.
  apply (recent_uploads_links_resolve (mkUpload "3" "Bob Johnson" "2023-05-10 16:20" "MRI" "Completed")).
  simpl; auto.
Defined.

Lemma filter_index_out (A : Type) (xs : list A) (i index : Z) :
  (index < i \/ i + Z.of_nat (length xs) <= index)%Z -> filter_index xs i index = xs.
Proof.
  revert i; induction xs as [| x xs IH]; intros i H; simpl; [reflexivity |].
  simpl length in H.
  destruct (Z.eqb i index) eqn:E; [apply Z.eqb_eq in E; lia |].
  f_equal; apply IH; lia.
Qed.

Lemma filter_index_in (A : Type) (xs : list A) (i index : Z) :
  (i <= index < i + Z.of_nat (length xs))%Z ->
  filter_index xs i index =
    app (firstn (Z.to_nat (index - i)) xs) (skipn (S (Z.to_nat (index - i))) xs).
Proof.
  revert i; induction xs as [| x xs IH]; intros i H; simpl length in H; [lia |].
  simpl filter_index.
  destruct (Z.eqb i index) eqn:E.
  - apply Z.eqb_eq in E; subst.
    replace (index - index)%Z with 0%Z by lia; simpl.
    apply filter_index_out; lia.
  - apply Z.eqb_neq in E.
    replace (Z.to_nat (index - i)) with (S (Z.to_nat (index - (i + 1)))) by lia.
    simpl; f_equal; apply IH; lia.
Qed.

(** [removeImage(index)] drops exactly the image at [index] when the index
    is in range, keeping the others in order and the other fields, and
    changes nothing when the index is out of range. *)
Theorem removeImage_spec (s : upload_form) (index : Z) :
  ((0 <= index < Z.of_nat (length (images s)))%Z ->
     removeImage s index =
       mkUploadForm (app (firstn (Z.to_nat index) (images s)) (skipn (S (Z.to_nat index)) (images s)))
                    (uf_patientName s) (uf_patientId s) (uf_imageType s) /\
     length (images (removeImage s index)) = pred (length (images s))) /\
  ((index < 0 \/ Z.of_nat (length (images s)) <= index)%Z -> removeImage s index = s).
Proof.
  destruct s as [imgs n pid t]; unfold removeImage; simpl; split.
  - intro H; rewrite filter_index_in by lia; rewrite Z.sub_0_r.
    split; [reflexivity |].
    rewrite length_app, length_firstn, length_skipn; lia.
  - intro H; rewrite filter_index_out by lia; reflexivity.
Qed.

Lemma removeImage_spec_witness :
  removeImage (mkUploadForm [mkImage "a" "blob:a"; mkImage "b" "blob:b"; mkImage "c" "blob:c"] "" "" "") 1 =
    mkUploadForm [mkImage "a" "blob:a"; mkImage "c" "blob:c"] "" "" "" /\
  removeImage (mkUploadForm [mkImage "a" "blob:a"] "" "" "") 3 =
    mkUploadForm [mkImage "a" "blob:a"] "" "" "".
Proof.
  split.
  - destruct (removeImage_spec
               (mkUploadForm [mkImage "a" "blob:a"; mkImage "b" "blob:b"; mkImage "c" "blob:c"] "" "" "") 1)
      as [Hin _].
    destruct Hin as [Heq _]; [simpl; lia |].
    rewrite Heq; reflexivity.
  - destruct (removeImage_spec (mkUploadForm [mkImage "a" "blob:a"] "" "" "") 3) as [_ Hout].
    apply Hout; simpl; lia.
Defined.

(** Removing a just-added image by the index it was shown at undoes the
    upload. *)
Theorem upload_then_remove (s : upload_form) (img : UploadedImage) :
  removeImage (handleImageUpload s [img]) (Z.of_nat (length (images s))) = s.
Proof.
  destruct s as [imgs n pid t]; unfold removeImage, handleImageUpload; simpl; f_equal.
  replace (Z.of_nat (length imgs)) with (0 + Z.of_nat (length imgs))%Z by lia.
  generalize 0%Z as i.
  induction imgs as [| x xs IH]; intro i; cbn [filter_index app length].
  - rewrite Z.add_0_r, Z.eqb_refl; reflexivity.
  - destruct (Z.eqb i (i + Z.of_nat (S (length xs)))) eqn:E; [apply Z.eqb_eq in E; lia |].
    f_equal.
    replace (i + Z.of_nat (S (length xs)))%Z with ((i + 1) + Z.of_nat (length xs))%Z by lia.
    apply IH.
Qed.

(** What the analysis panel of the upload page (MedicalAnalysis) ends in
    against the inference route: with a file selected it posts
    [image] and [type], always clears [loading], and either shows the
    parsed output of the inference script (keeping the previous error),
    or shows ["Inference failed"] (keeping the previous analysis), or, with
    an empty image type, ["Missing required fields"]. Its own fallback
    message ["Analysis failed"] is never produced: it is shown only if an
    earlier error already was that text (a success keeps the old error). *)
Theorem analysis_panel_against_route (jp : string -> option json) (e : env)
    (s : analysis_state) (f : string * list Byte.byte)
    (Hf : selectedFile s = Some f) :
  snd (handleAnalyze s (route_server jp e)) = Some (analyze_form f (an_imageType s)) /\
  loading (fst (handleAnalyze s (route_server jp e))) = false /\
  selectedFile (fst (handleAnalyze s (route_server jp e))) = Some f /\
  ((exists X, jp (stdout (proc e)) = Some X /\
     analysis (fst (handleAnalyze s (route_server jp e))) = Some X /\
     an_error (fst (handleAnalyze s (route_server jp e))) = an_error s) \/
   (analysis (fst (handleAnalyze s (route_server jp e))) = analysis s /\
    an_error (fst (handleAnalyze s (route_server jp e))) = Some (JStr "Inference failed")) \/
   (an_imageType s = "" /\
    analysis (fst (handleAnalyze s (route_server jp e))) = analysis s /\
    an_error (fst (handleAnalyze s (route_server jp e))) = Some (JStr "Missing required fields"))) /\
  (an_error s <> Some (JStr "Analysis failed") ->
   an_error (fst (handleAnalyze s (route_server jp e))) <> Some (JStr "Analysis failed")).
Proof.
  destruct s as [sf t an ld er]; simpl in Hf; subst sf.
  unfold handleAnalyze, route_server; cbn [selectedFile an_imageType analysis loading an_error].
  destruct (String.eqb t "") eqn:Et.
  - apply String.eqb_eq in Et; subst t.
    unfold inference_POST, inference_body, try_catch, analyze_form; cbv zeta; simpl.
    repeat split; try (intros ?; discriminate); eauto 10.
  - assert (Hi : truthy (form_get (analyze_form f t) "image") = true) by reflexivity.
    assert (Ht : truthy (form_get (analyze_form f t) "type") = true)
      by (simpl; rewrite Et; reflexivity).
    destruct (inference_POST_result jp (analyze_form f t) e Hi Ht) as [H | [X [fn [HX H]]]];
      rewrite H; simpl.
    all: repeat split; try (intros ?; discriminate); eauto 10.
Qed.

Lemma analysis_panel_against_route_witness :
  snd (handleAnalyze (mkAnalysis (Some ("scan.png", [Byte.x00])) "ct" None true None)
         (route_server sample_parse (sample_env proc_ok))) =
    Some (analyze_form ("scan.png", [Byte.x00]) "ct") /\
  analysis (fst (handleAnalyze (mkAnalysis (Some ("scan.png", [Byte.x00])) "ct" None true None)
         (route_server sample_parse (sample_env proc_ok)))) = Some JNull.
Proof.
  destruct (analysis_panel_against_route sample_parse (sample_env proc_ok)
              (mkAnalysis (Some ("scan.png", [Byte.x00])) "ct" None true None)
              ("scan.png", [Byte.x00]) eq_refl) as [Hreq _].
  split; [exact Hreq | vm_compute; reflexivity].
Defined.

(** The analysis panel's request carries no [patientId] or [patientName]:
    whatever the route gets to do with it, the upload is stored under
    ["null_<now>_<file name>"] with the file's bytes, and the script is
    passed the string ["null"] for both patient fields. *)
Theorem analysis_panel_upload_trace (jp : string -> option json) (e : env)
    (f : string * list Byte.byte) (t : string) (Ht : t <> "") :
  exists n,
    fst (inference_POST jp (analyze_form f t) e) =
      firstn n
        [Mkdir (path_join (cwd e) "uploads");
         WriteFile (path_join (cwd e) "uploads") ("null_" ++ show_num (now e) ++ "_" ++ fst f) (snd f);
         Spawn "python"
           [path_join (cwd e) "fl-backend/server/inference.py";
            "--image_path";
            path_join (path_join (cwd e) "uploads") ("null_" ++ show_num (now e) ++ "_" ++ fst f);
            "--image_type"; t; "--patient_id"; "null"; "--patient_name"; "null"]].
Proof.
  destruct f as [name bs].
  apply String.eqb_neq in Ht.
  unfold_routes; unfold analyze_form; simpl; rewrite Ht; simpl.
  split_matches; simpl in *; pairs; simpl.
  all: first [ exists 0; reflexivity | exists 1; reflexivity | exists 2; reflexivity
             | exists 3; reflexivity ].
Qed.

Lemma analysis_panel_upload_trace_witness :
  fst (inference_POST sample_parse (analyze_form ("scan.png", [Byte.x00]) "mri") (sample_env proc_ok)) =
    [Mkdir "/srv/medai/uploads";
     WriteFile "/srv/medai/uploads" "null_1700000000000_scan.png" [Byte.x00];
     Spawn "python"
       ["/srv/medai/fl-backend/server/inference.py"; "--image_path";
        "/srv/medai/uploads/null_1700000000000_scan.png"; "--image_type"; "mri";
        "--patient_id"; "null"; "--patient_name"; "null"]].
Proof.
  destruct (analysis_panel_upload_trace sample_parse (sample_env proc_ok) ("scan.png", [Byte.x00]) "mri"
              ltac:(discriminate)) as [n Hn].
  rewrite Hn.
  destruct n as [| [| [| n]]]; vm_compute in Hn; try discriminate Hn; destruct n; reflexivity.
Defined.
